(** * agentic_content_creation: environment loader and crew assembler

    A shallow embedding of [env_helper.py] and [crew.py].  The Python
    process is a [World]: the process environment [os.environ], the parsed
    dotenv files on disk, standard output, a log of the file-system
    accesses made by python-dotenv, and the tool objects allocated so far.
    Python statements are computations in a state-and-exception monad over
    that world; an exception leaves the effects made before it in place. *)

From Stdlib Require Import Ascii String.
From stdpp Require Import gmap strings list fin_maps.

Open Scope string_scope.

(** ** Python values and exceptions *)

(** What [os.getenv] can return: [None] or a [str]. *)
Inductive value :=
| VNone
| VStr (s : string).

(** A string that may be missing, as a Python value. *)
Definition value_of (o : option string) : value :=
  match o with
  | Some s => VStr s
  | None => VNone
  end.

(** [str(v)], as used by an f-string replacement field. *)
Definition py_str (v : value) : string :=
  match v with
  | VNone => "None"
  | VStr s => s
  end.

(** Name of the Python type of a value, [type(v).__name__]. *)
Definition type_name (v : value) : string :=
  match v with
  | VNone => "NoneType"
  | VStr _ => "str"
  end.

Inductive exn :=
| TypeError (msg : string).

Inductive result (A : Type) :=
| Ok (a : A)
| Raise (e : exn).
Arguments Ok {A} a.
Arguments Raise {A} e.

(** ** Tools of the orchestration framework (crewai_tools) *)

Inductive ToolKind :=
| SerperDevTool_cls
| ScrapeWebsiteTool_cls
| WebsiteSearchTool_cls.

(** A tool object: its identity and its class. *)
Record Tool := mkTool {
  tool_id : nat;
  tool_kind : ToolKind
}.

(** ** The world *)

(** One line of a dotenv file after parsing: a key and, unless the line is
    a bare key without [=], its value with the quotes removed.  Expansion
    of [${NAME}] inside values is not modelled. *)
Definition binding : Type := string * option string.

Inductive io_event :=
| EvFindDotenv
| EvReadFile (path : string).

Record World := mkWorld {
  environ : gmap string string;
  (** the dotenv files on disk, by path, as parsed line by line *)
  files : gmap string (list binding);
  (** the path the upward search for [.env] ends at; empty when none *)
  dotenv_path : string;
  io_log : list io_event;
  stdout : string;
  (** tool objects constructed so far, oldest first *)
  tools_created : list Tool;
  next_id : nat
}.

Definition set_environ (e : gmap string string) (w : World) : World :=
  mkWorld e (files w) (dotenv_path w) (io_log w) (stdout w)
          (tools_created w) (next_id w).

Definition log_io (ev : io_event) (w : World) : World :=
  mkWorld (environ w) (files w) (dotenv_path w) (io_log w ++ [ev]) (stdout w)
          (tools_created w) (next_id w).

Definition write_stdout (s : string) (w : World) : World :=
  mkWorld (environ w) (files w) (dotenv_path w) (io_log w) (stdout w +:+ s)
          (tools_created w) (next_id w).

Definition alloc_tool (t : Tool) (w : World) : World :=
  mkWorld (environ w) (files w) (dotenv_path w) (io_log w) (stdout w)
          (tools_created w ++ [t]) (S (next_id w)).

(** ** The monad of Python statements *)

Definition M (A : Type) : Type := World → result A * World.

#[global] Instance M_ret : MRet M := λ A a w, (Ok a, w).

#[global] Instance M_bind : MBind M := λ A B f m w,
  match m w with
  | (Ok a, w') => f a w'
  | (Raise e, w') => (Raise e, w')
  end.

Definition raise {A} (e : exn) : M A := λ w, (Raise e, w).
Definition gets {A} (f : World → A) : M A := λ w, (Ok (f w), w).
Definition modify (f : World → World) : M unit := λ w, (Ok (), f w).

(** ** Library calls used by the program *)

Module os.

(** [os.getenv(key)]: the value in [os.environ], [None] when absent. *)
Definition getenv (key : string) : M value :=
  gets (λ w, value_of (environ w !! key)).

(** [os.environ[key] = value]: the value must be a [str]. *)
Definition environ_setitem (key : string) (v : value) : M unit :=
  match v with
  | VStr s => modify (λ w, set_environ (<[key := s]> (environ w)) w)
  | VNone => raise (TypeError ("str expected, not " +:+ type_name v))
  end.

End os.

Definition newline : string := String "010"%char EmptyString.

(** [print(s)] *)
Definition print (s : string) : M unit :=
  modify (write_stdout (s +:+ newline)).

Module dotenv.

(** [find_dotenv()]: the path of the nearest [.env], or [''] . *)
Definition find_dotenv : M string :=
  modify (log_io EvFindDotenv);;
  gets dotenv_path.

(** [DotEnv.dict()]: the bindings in file order go into one dictionary, a
    later line for a key replacing an earlier one. *)
Definition dict (bs : list binding) : gmap string (option string) :=
  foldl (λ d b, <[b.1 := b.2]> d) ∅ bs.

(** [DotEnv.set_as_environment_variables()] with [override=False]: a key
    already in [os.environ] is skipped, a key without value is skipped,
    every other key is exported. *)
Definition set_as_environment_variables
    (d : gmap string (option string)) (env : gmap string string)
    : gmap string string :=
  map_fold (λ k v e,
              match e !! k with
              | Some _ => e
              | None => match v with
                        | Some s => <[k := s]> e
                        | None => e
                        end
              end) env d.

(** The stream [load_dotenv] parses: the file when the path is non-empty
    and names a file, the empty stream otherwise. *)
Definition read_stream (path : string) : M (list binding) :=
  if decide (path = "") then mret []
  else
    fs ← gets files;
    match fs !! path with
    | Some bs => modify (log_io (EvReadFile path));; mret bs
    | None => mret []
    end.

(** [load_dotenv(path)]; the result tells whether the file had bindings. *)
Definition load_dotenv (path : string) : M bool :=
  bs ← read_stream path;
  let d := dict bs in
  if decide (d = ∅) then mret false
  else
    modify (λ w, set_environ (set_as_environment_variables d (environ w)) w);;
    mret true.

End dotenv.

(** ** env_helper.py *)

Module env_helper.

Definition load_env : M unit :=
  path ← dotenv.find_dotenv;
  _ ← dotenv.load_dotenv path;
  mret ().

Definition get_value (key : string) : M value :=
  load_env;;
  os.getenv key.

End env_helper.

(** ** crew.py *)

Module crew.

(** *** Output schemas (pydantic models) *)

Inductive BaseModel :=
| SocialMediaPost
| ContentOutput.

Inductive annotation :=
| str
| List (a : annotation)
| Model (m : BaseModel).

(** A declared field: its name, its annotation, and whether it is required
    ([Field(...)] with the ellipsis as default). *)
Record FieldInfo := mkField {
  field_name : string;
  field_type : annotation;
  field_required : bool
}.

Definition model_fields (m : BaseModel) : list FieldInfo :=
  match m with
  | SocialMediaPost =>
      [ mkField "platform" str true;
        mkField "content" str true ]
  | ContentOutput =>
      [ mkField "article" str true;
        mkField "social_media_posts" (List (Model SocialMediaPost)) true ]
  end.

(** *** Descriptors of the orchestration framework (crewai) *)

(** An entry of a YAML configuration file, [self.agents_config[key]]; the
    files themselves are external to the program. *)
Record ConfigRef := mkConfigRef {
  config_file : string;
  config_key : string
}.

Record Agent := mkAgent {
  agent_config : ConfigRef;
  agent_tools : list Tool
}.

(** [Agent(config=..., tools=...)]; [tools] defaults to the empty list. *)
Definition Agent_new (config : ConfigRef) (tools : option (list Tool)) : Agent :=
  mkAgent config (default [] tools).

Record Task := mkTask {
  task_name : option string;
  task_config : ConfigRef;
  task_context : option (list string);
  task_output_pydantic : option BaseModel;
  task_output_file : option string
}.

(** [Task(config=..., context=..., output_pydantic=..., output_file=...)];
    every keyword but [config] defaults to [None]. *)
Definition Task_new (config : ConfigRef) (context : option (list string))
    (output_pydantic : option BaseModel) (output_file : option string) : Task :=
  mkTask None config context output_pydantic output_file.

Inductive Process :=
| sequential
| hierarchical.

Record Crew := mkCrew {
  crew_agents : list Agent;
  crew_tasks : list Task;
  crew_process : Process;
  crew_verbose : bool
}.

(** The order in which the framework runs the tasks of a crew: a
    sequential process runs the task list front to back; in a hierarchical
    process a manager agent delegates at run time, so no order is fixed. *)
Definition execution_order (c : Crew) : option (list Task) :=
  match crew_process c with
  | sequential => Some (crew_tasks c)
  | hierarchical => None
  end.

(** Tool constructors: each call allocates a fresh tool object. *)
Definition new_tool (k : ToolKind) : M Tool :=
  n ← gets next_id;
  let t := mkTool n k in
  modify (alloc_tool t);;
  mret t.

Definition SerperDevTool : M Tool := new_tool SerperDevTool_cls.
Definition ScrapeWebsiteTool : M Tool := new_tool ScrapeWebsiteTool_cls.
Definition WebsiteSearchTool : M Tool := new_tool WebsiteSearchTool_cls.

(** *** class AgenticContentCreation *)

(** The class attributes bound by the class body. *)
Record AgenticContentCreation := mkClass {
  agents_config : string;
  tasks_config : string;
  serperApiKey : value;
  serper : Tool;
  scraper : Tool;
  searcher : Tool
}.

(** The statements of the class body, run once when the class is defined. *)
Definition class_body : M AgenticContentCreation :=
  let agents_config := "config/agents.yaml" in
  let tasks_config := "config/tasks.yaml" in
  serperApiKey ← env_helper.get_value "SERPER_API_KEY";
  print ("*****SERPER_API_KEY: " +:+ py_str serperApiKey);;
  v ← env_helper.get_value "SERPER_API_KEY";
  os.environ_setitem "SERPER_API_KEY" v;;
  serper ← SerperDevTool;
  scraper ← ScrapeWebsiteTool;
  searcher ← WebsiteSearchTool;
  mret (mkClass agents_config tasks_config serperApiKey serper scraper searcher).

(** [self.agents_config[key]] and [self.tasks_config[key]] *)
Definition agents_config_item (self : AgenticContentCreation) (key : string) : ConfigRef :=
  mkConfigRef (agents_config self) key.

Definition tasks_config_item (self : AgenticContentCreation) (key : string) : ConfigRef :=
  mkConfigRef (tasks_config self) key.

(** AGENTS *)

Definition market_news_monitor_agent (self : AgenticContentCreation) : Agent :=
  Agent_new (agents_config_item self "market_news_monitor_agent")
            (Some [serper self; scraper self]).

Definition data_analyst_agent (self : AgenticContentCreation) : Agent :=
  Agent_new (agents_config_item self "data_analyst_agent")
            (Some [serper self; searcher self]).

Definition content_creator_agent (self : AgenticContentCreation) : Agent :=
  Agent_new (agents_config_item self "content_creator_agent")
            (Some [serper self; scraper self]).

Definition quality_assurance_agent (self : AgenticContentCreation) : Agent :=
  Agent_new (agents_config_item self "quality_assurance_agent") None.

(** TASKS *)

Definition monitor_market_news_task (self : AgenticContentCreation) : Task :=
  Task_new (tasks_config_item self "monitor_market_news_task") None None None.

Definition analyze_market_data_task (self : AgenticContentCreation) : Task :=
  Task_new (tasks_config_item self "analyze_market_data_task") None None None.

(** The [context=[...]] keyword is commented out in the source. *)
Definition create_content_task (self : AgenticContentCreation) : Task :=
  Task_new (tasks_config_item self "create_content_task") None None None.

Definition quality_assurance_task (self : AgenticContentCreation) : Task :=
  Task_new (tasks_config_item self "quality_assurance_task") None
           (Some ContentOutput) (Some "report.md").

(** *** Registration by decorators *)

(** A decorated method of the class, in the order of the class body. *)
Inductive member :=
| agent_method (name : string) (body : AgenticContentCreation → Agent)
| task_method (name : string) (body : AgenticContentCreation → Task)
| crew_method (name : string).

Definition members : list member :=
  [ agent_method "market_news_monitor_agent" market_news_monitor_agent;
    agent_method "data_analyst_agent" data_analyst_agent;
    agent_method "content_creator_agent" content_creator_agent;
    agent_method "quality_assurance_agent" quality_assurance_agent;
    task_method "monitor_market_news_task" monitor_market_news_task;
    task_method "analyze_market_data_task" analyze_market_data_task;
    task_method "create_content_task" create_content_task;
    task_method "quality_assurance_task" quality_assurance_task;
    crew_method "crew" ].

(** The [@task] wrapper: a task built without a name takes the name of
    its method. *)
Definition task_decorator (name : string) (t : Task) : Task :=
  match task_name t with
  | Some _ => t
  | None =>
      mkTask (Some name) (task_config t) (task_context t)
             (task_output_pydantic t) (task_output_file t)
  end.

(** [self.agents]: the [@agent] methods called in declaration order. *)
Definition self_agents (self : AgenticContentCreation) : list Agent :=
  omap (λ m, match m with
             | agent_method _ body => Some (body self)
             | _ => None
             end) members.

(** [self.tasks]: the [@task] methods called in declaration order. *)
Definition self_tasks (self : AgenticContentCreation) : list Task :=
  omap (λ m, match m with
             | task_method name body => Some (task_decorator name (body self))
             | _ => None
             end) members.

(** The [@crew] method. *)
Definition crew (self : AgenticContentCreation) : Crew :=
  mkCrew (self_agents self) (self_tasks self) sequential true.

(** Defining the class and asking an instance for its crew. *)
Definition assemble : M Crew :=
  self ← class_body;
  mret (crew self).

End crew.

(** ** Worlds used in examples *)

Definition empty_world : World :=
  mkWorld ∅ ∅ "" [] "" [] 0.

(** A project directory with a [.env] file that defines two keys. *)
Definition dotenv_world : World :=
  mkWorld ∅
          {[ "/app/.env" := [ ("OPENAI_API_KEY", Some "sk-1");
                              ("SERPER_API_KEY", Some "s3cr3t") ] ]}
          "/app/.env" [] "" [] 0.

(** The key is exported by the shell; there is no [.env] file. *)
Definition exported (secret : string) : World :=
  mkWorld {[ "SERPER_API_KEY" := secret ]} ∅ "" [] "" [] 0.

Definition exported_world : World := exported "s3cr3t".

(** The world [w] after the environment file was rewritten to [bs]. *)
Definition rewrite_dotenv (path : string) (bs : list binding) (w : World) : World :=
  mkWorld (environ w) (<[path := bs]> (files w)) path (io_log w) (stdout w)
          (tools_created w) (next_id w).

(** The shell exports the key, and the [.env] file gives it another value,
    twice, besides a bare key and a second variable. *)
Definition mixed_world : World :=
  mkWorld {[ "SERPER_API_KEY" := "s3cr3t" ]}
          {[ "/app/.env" := [ ("SERPER_API_KEY", Some "file-1");
                              ("MODEL", Some "gpt-4o");
                              ("DEBUG", None);
                              ("MODEL", Some "gpt-4o-mini") ] ]}
          "/app/.env" [] "" [] 0.

(** ** The environment file of a world *)

(** The lines of the environment file of a world: those of the file the
    search for [.env] ends at, none when there is no such file. *)
Definition dotenv_bindings (w : World) : list binding :=
  if decide (dotenv_path w = "") then []
  else default [] (files w !! dotenv_path w).

(** The environment file as a dictionary. *)
Definition dotenv_values (w : World) : gmap string (option string) :=
  dotenv.dict (dotenv_bindings w).

(** [key] is set to [v]: by the process environment, or else by the
    environment file. *)
Definition is_set (w : World) (key v : string) : Prop :=
  environ w !! key = Some v ∨
  (environ w !! key = None ∧ dotenv_values w !! key = Some (Some v)).

(** [key] is set neither by the process environment nor, with a value, by
    the environment file. *)
Definition is_unset (w : World) (key : string) : Prop :=
  environ w !! key = None ∧ ∀ v, dotenv_values w !! key ≠ Some (Some v).

(** The file-system accesses of one load of the environment file: the
    search for it and, when it exists, the read. *)
Definition read_events (w : World) : list io_event :=
  if decide (dotenv_path w = "") then []
  else match files w !! dotenv_path w with
       | Some _ => [EvReadFile (dotenv_path w)]
       | None => []
       end.

Definition load_events (w : World) : list io_event :=
  EvFindDotenv :: read_events w.

(** The world after one load of the environment file. *)
Definition loaded (w : World) : World :=
  mkWorld (dotenv.set_as_environment_variables (dotenv_values w) (environ w))
          (files w) (dotenv_path w) (io_log w ++ load_events w) (stdout w)
          (tools_created w) (next_id w).

(** A [.env] file that defines another key only; the shell exports
    nothing. *)
Definition no_key_world : World :=
  mkWorld ∅ {[ "/app/.env" := [ ("OPENAI_API_KEY", Some "sk-1") ] ]}
          "/app/.env" [] "" [] 0.

(** Lists of records that differ in a field have no duplicates. *)
Ltac distinct_members :=
  let Hin := fresh "Hin" in
  repeat (apply NoDup_cons_2;
          [ rewrite ?elem_of_cons, ?elem_of_nil; intros Hin;
            repeat destruct Hin as [Hin|Hin];
            try done; try (injection Hin; lia) |]);
  apply NoDup_nil_2.

(** * Properties *)

(** ** Runs on the example worlds *)

Example get_value_from_dotenv :
  (env_helper.get_value "SERPER_API_KEY" dotenv_world).1 = Ok (VStr "s3cr3t").
Proof. vm_compute. reflexivity. Qed.

(** The process environment wins over the file, the last line for a key
    wins inside the file, and a bare key is not exported. *)
Example get_value_mixed :
  (env_helper.get_value "SERPER_API_KEY" mixed_world).1 = Ok (VStr "s3cr3t") ∧
  (env_helper.get_value "MODEL" mixed_world).1 = Ok (VStr "gpt-4o-mini") ∧
  (env_helper.get_value "DEBUG" mixed_world).1 = Ok VNone.
Proof. repeat split; vm_compute; reflexivity. Qed.

Example load_env_exports_file :
  environ (env_helper.load_env mixed_world).2 =
  {[ "SERPER_API_KEY" := "s3cr3t"; "MODEL" := "gpt-4o-mini" ]} ∧
  io_log (env_helper.load_env mixed_world).2 =
  [EvFindDotenv; EvReadFile "/app/.env"].
Proof. split; vm_compute; reflexivity. Qed.

Example assemble_exported :
  (crew.assemble exported_world).1 =
  Ok (crew.crew (crew.mkClass "config/agents.yaml" "config/tasks.yaml"
                   (VStr "s3cr3t") (mkTool 0 SerperDevTool_cls)
                   (mkTool 1 ScrapeWebsiteTool_cls)
                   (mkTool 2 WebsiteSearchTool_cls))) ∧
  stdout (crew.assemble exported_world).2 =
  "*****SERPER_API_KEY: s3cr3t" +:+ newline.
Proof. split; vm_compute; reflexivity. Qed.

(** ** The monad *)

Lemma bind_ok {A B} (m : M A) (f : A → M B) w a w' :
  m w = (Ok a, w') → (m ≫= f) w = f a w'.
Proof. intros H. unfold mbind, M_bind. by rewrite H. Qed.

Lemma bind_raise {A B} (m : M A) (f : A → M B) w e w' :
  m w = (Raise e, w') → (m ≫= f) w = (Raise e, w').
Proof. intros H. unfold mbind, M_bind. by rewrite H. Qed.

(** ** Loading the environment file *)

Lemma set_as_environment_variables_lookup d (env : gmap string string) k :
  dotenv.set_as_environment_variables d env !! k =
  match env !! k with
  | Some v => Some v
  | None => d !! k ≫= id
  end.
Proof.
  unfold dotenv.set_as_environment_variables.
  apply (map_fold_weak_ind (λ r m,
    r !! k = match env !! k with Some v => Some v | None => m !! k ≫= id end)).
  - rewrite lookup_empty. by destruct (env !! k).
  - intros i x m r Hi IH.
    destruct (decide (i = k)) as [->|Hne].
    + rewrite lookup_insert_eq. rewrite Hi in IH. simpl.
      destruct (env !! k) as [v|] eqn:Hk.
      * rewrite IH. done.
      * simpl in IH. rewrite IH. destruct x as [s|]; simpl.
        -- apply lookup_insert_eq.
        -- done.
    + rewrite (lookup_insert_ne m i k) by done.
      rewrite <- IH.
      destruct (r !! i); [done|].
      destruct x; [|done]. by rewrite lookup_insert_ne.
Qed.

Lemma set_as_environment_variables_empty (env : gmap string string) :
  dotenv.set_as_environment_variables ∅ env = env.
Proof. unfold dotenv.set_as_environment_variables. apply map_fold_empty. Qed.

Lemma set_as_environment_variables_idemp d (env : gmap string string) :
  dotenv.set_as_environment_variables d
    (dotenv.set_as_environment_variables d env) =
  dotenv.set_as_environment_variables d env.
Proof.
  apply map_eq. intros k.
  rewrite !set_as_environment_variables_lookup.
  destruct (env !! k); [done|]. by destruct (d !! k ≫= id).
Qed.

Lemma read_stream_run w path :
  path = dotenv_path w →
  dotenv.read_stream path w =
  (Ok (dotenv_bindings w),
   mkWorld (environ w) (files w) (dotenv_path w)
           (io_log w ++ read_events w)
           (stdout w) (tools_created w) (next_id w)).
Proof.
  intros ->. unfold dotenv.read_stream, dotenv_bindings, read_events.
  destruct w as [e fs p lg out ts n]; simpl.
  destruct (decide (p = "")) as [->|Hp].
  - unfold mret, M_ret. by rewrite app_nil_r.
  - unfold mbind, M_bind, gets; simpl.
    destruct (fs !! p) as [bs|]; simpl.
    + done.
    + unfold mret, M_ret. by rewrite app_nil_r.
Qed.

Lemma load_env_run w : env_helper.load_env w = (Ok (), loaded w).
Proof.
  unfold env_helper.load_env, dotenv.find_dotenv.
  unfold mbind at 1, M_bind at 1. unfold mbind at 2, M_bind at 2.
  unfold modify at 1, gets at 1. cbn [fst snd].
  unfold mbind at 1, M_bind at 1. unfold dotenv.load_dotenv.
  unfold mbind at 1, M_bind at 1.
  rewrite (read_stream_run (log_io EvFindDotenv w)) by done.
  fold (dotenv_values (log_io EvFindDotenv w)).
  assert (Hv : dotenv_values (log_io EvFindDotenv w) = dotenv_values w) by done.
  rewrite Hv. unfold loaded.
  destruct (decide (dotenv_values w = ∅)) as [He|He].
  - unfold mret, M_ret. cbn. rewrite He, set_as_environment_variables_empty.
    unfold load_events. by rewrite <- app_assoc.
  - unfold mbind, M_bind, modify, mret, M_ret. cbn.
    unfold load_events. by rewrite <- app_assoc.
Qed.

Lemma get_value_run w key :
  env_helper.get_value key w =
  (Ok (value_of (environ (loaded w) !! key)), loaded w).
Proof.
  unfold env_helper.get_value.
  by rewrite (bind_ok _ _ _ _ _ (load_env_run w)).
Qed.

Lemma loaded_lookup w k :
  environ (loaded w) !! k =
  match environ w !! k with
  | Some v => Some v
  | None => dotenv_values w !! k ≫= id
  end.
Proof. apply set_as_environment_variables_lookup. Qed.

Lemma loaded_is_set w key v :
  is_set w key v → environ (loaded w) !! key = Some v.
Proof.
  intros [H|[H1 H2]]; rewrite loaded_lookup.
  - by rewrite H.
  - by rewrite H1, H2.
Qed.

Lemma loaded_is_unset w key :
  is_unset w key → environ (loaded w) !! key = None.
Proof.
  intros [H1 H2]. rewrite loaded_lookup, H1.
  destruct (dotenv_values w !! key) as [[v|]|] eqn:E; try done.
  by destruct (H2 v).
Qed.

Lemma loaded_loaded_environ w : environ (loaded (loaded w)) = environ (loaded w).
Proof. apply set_as_environment_variables_idemp. Qed.

(** ** Running the class body *)

Lemma class_body_run w :
  crew.class_body w =
  let w1 := loaded w in
  let key := value_of (environ w1 !! "SERPER_API_KEY") in
  let w2 := write_stdout (("*****SERPER_API_KEY: " +:+ py_str key) +:+ newline) w1 in
  let w3 := loaded w2 in
  match environ w3 !! "SERPER_API_KEY" with
  | None => (Raise (TypeError "str expected, not NoneType"), w3)
  | Some s =>
      let w4 := set_environ (<["SERPER_API_KEY" := s]> (environ w3)) w3 in
      let t0 := mkTool (next_id w4) SerperDevTool_cls in
      let t1 := mkTool (S (next_id w4)) ScrapeWebsiteTool_cls in
      let t2 := mkTool (S (S (next_id w4))) WebsiteSearchTool_cls in
      (Ok (crew.mkClass "config/agents.yaml" "config/tasks.yaml" key t0 t1 t2),
       alloc_tool t2 (alloc_tool t1 (alloc_tool t0 w4)))
  end.
Proof.
  unfold crew.class_body.
  rewrite (bind_ok _ _ _ _ _ (get_value_run w "SERPER_API_KEY")).
  unfold print. unfold mbind at 1, M_bind at 1. unfold modify at 1.
  erewrite bind_ok by apply get_value_run.
  cbv zeta.
  set (w2 := write_stdout _ (loaded w)).
  destruct (environ (loaded w2) !! "SERPER_API_KEY") as [s|].
  - reflexivity.
  - reflexivity.
Qed.

Lemma loaded_write_stdout_environ s w :
  environ (loaded (write_stdout s (loaded w))) = environ (loaded w).
Proof. apply set_as_environment_variables_idemp. Qed.

(** The class body succeeds exactly when the key resolves to a string. *)
Lemma class_body_ok w s :
  environ (loaded w) !! "SERPER_API_KEY" = Some s →
  ∃ w', crew.class_body w =
        (Ok (crew.mkClass "config/agents.yaml" "config/tasks.yaml" (VStr s)
               (mkTool (next_id w) SerperDevTool_cls)
               (mkTool (S (next_id w)) ScrapeWebsiteTool_cls)
               (mkTool (S (S (next_id w))) WebsiteSearchTool_cls)), w') ∧
        environ w' = environ (loaded w) ∧
        stdout w' = stdout w +:+ (("*****SERPER_API_KEY: " +:+ s) +:+ newline) ∧
        tools_created w' = (tools_created w ++
          [ mkTool (next_id w) SerperDevTool_cls;
            mkTool (S (next_id w)) ScrapeWebsiteTool_cls;
            mkTool (S (S (next_id w))) WebsiteSearchTool_cls ])%list.
Proof.
  intros Hs. rewrite class_body_run. cbv zeta.
  rewrite loaded_write_stdout_environ, Hs. simpl value_of.
  eexists. split; [reflexivity|]. cbn [environ stdout tools_created alloc_tool set_environ].
  split; [by apply insert_id|]. split; [done|].
  cbn. by rewrite <- !app_assoc.
Qed.

Lemma class_body_raise w :
  environ (loaded w) !! "SERPER_API_KEY" = None →
  (crew.class_body w).1 = Raise (TypeError "str expected, not NoneType").
Proof.
  intros Hs. rewrite class_body_run. cbv zeta.
  by rewrite loaded_write_stdout_environ, Hs.
Qed.

Lemma class_body_environ w :
  environ (crew.class_body w).2 = environ (loaded w).
Proof.
  destruct (environ (loaded w) !! "SERPER_API_KEY") as [s|] eqn:Hs.
  - destruct (class_body_ok w s Hs) as (w' & -> & He & _). done.
  - rewrite class_body_run. cbv zeta.
    rewrite loaded_write_stdout_environ, Hs. simpl.
    apply loaded_write_stdout_environ.
Qed.

(** ** Strings *)

Lemma append_newline_inj (a b : string) :
  a +:+ newline = b +:+ newline → a = b.
Proof.
  revert b. induction a as [|c a IH]; intros [|d b] H; simpl in H.
  - done.
  - injection H as _ H. by destruct b.
  - injection H as _ H. by destruct a.
  - injection H as -> H. f_equal. by apply IH.
Qed.

Lemma class_body_inv w self :
  (crew.class_body w).1 = Ok self →
  ∃ s, environ (loaded w) !! "SERPER_API_KEY" = Some s ∧
       self = crew.mkClass "config/agents.yaml" "config/tasks.yaml" (VStr s)
                (mkTool (next_id w) SerperDevTool_cls)
                (mkTool (S (next_id w)) ScrapeWebsiteTool_cls)
                (mkTool (S (S (next_id w))) WebsiteSearchTool_cls).
Proof.
  intros H.
  destruct (environ (loaded w) !! "SERPER_API_KEY") as [s|] eqn:Hs.
  - exists s. split; [done|].
    destruct (class_body_ok w s Hs) as (w' & Hrun & _).
    rewrite Hrun in H. simpl in H. by injection H.
  - by rewrite (class_body_raise w Hs) in H.
Qed.

(** With the key set, defining the class and building the crew succeeds. *)
Lemma assemble_ok w v :
  is_set w "SERPER_API_KEY" v →
  ∃ self w', crew.class_body w = (Ok self, w') ∧
             crew.assemble w = (Ok (crew.crew self), w').
Proof.
  intros H. apply loaded_is_set in H.
  destruct (class_body_ok w v H) as (w' & Hrun & _).
  eexists _, w'. split; [exact Hrun|].
  unfold crew.assemble. by rewrite (bind_ok _ _ _ _ _ Hrun).
Qed.

(** [get_value] has no statement that can raise. *)
Lemma get_value_never_raises w key :
  ∃ v, (env_helper.get_value key w).1 = Ok v.
Proof. rewrite get_value_run. by eexists. Qed.

(** Whenever the key is unset the class body stops at the assignment. *)
Lemma class_body_raises_when_unset w :
  is_unset w "SERPER_API_KEY" →
  (crew.class_body w).1 = Raise (TypeError "str expected, not NoneType").
Proof. intros H. apply class_body_raise. by apply loaded_is_unset. Qed.

(** * The environment loader *)

(** C3: a key that is set, by the process environment or else by the
    environment file, is returned by [get_value] as exactly the string it
    is set to, without an exception. *)
Theorem get_value_returns_set_value (w : World) (key v : string) :
  is_set w key v →
  (env_helper.get_value key w).1 = Ok (VStr v).
Proof.
  intros H. rewrite get_value_run. cbn [fst].
  by rewrite (loaded_is_set w key v H).
Qed.

Lemma get_value_returns_set_value_witness :
  is_set dotenv_world "SERPER_API_KEY" "s3cr3t" ∧
  (env_helper.get_value "SERPER_API_KEY" dotenv_world).1 = Ok (VStr "s3cr3t").
Proof.
  assert (H : is_set dotenv_world "SERPER_API_KEY" "s3cr3t").
  { right. split; vm_compute; reflexivity. }
  split; [exact H|].
  exact (get_value_returns_set_value dotenv_world "SERPER_API_KEY" "s3cr3t" H).
Defined.

(** C4: for a key that is set neither by the process environment nor by
    the environment file, [get_value] returns [None]; it does not raise. *)
Theorem get_value_unset_returns_none (w : World) (key : string) :
  is_unset w key →
  (env_helper.get_value key w).1 = Ok VNone.
Proof.
  intros H. rewrite get_value_run. cbn [fst].
  by rewrite (loaded_is_unset w key H).
Qed.

Lemma get_value_unset_returns_none_witness :
  is_unset dotenv_world "ANTHROPIC_API_KEY" ∧
  (env_helper.get_value "ANTHROPIC_API_KEY" dotenv_world).1 = Ok VNone.
Proof.
  assert (H : is_unset dotenv_world "ANTHROPIC_API_KEY").
  { split; [vm_compute; reflexivity|]. intros v. vm_compute. discriminate. }
  split; [exact H|].
  exact (get_value_unset_returns_none dotenv_world "ANTHROPIC_API_KEY" H).
Defined.

(** C8: two successive calls of [get_value] return the same value, the
    second leaves the process environment as the first left it, and each
    call searches for and reads the environment file again. *)
Theorem get_value_idempotent_no_cache (w : World) (key : string) :
  let r1 := env_helper.get_value key w in
  let r2 := env_helper.get_value key r1.2 in
  r2.1 = r1.1 ∧
  environ r2.2 = environ r1.2 ∧
  io_log r1.2 = (io_log w ++ load_events w)%list ∧
  io_log r2.2 = (io_log r1.2 ++ load_events w)%list.
Proof.
  cbv zeta. rewrite (get_value_run w key). cbn [fst snd].
  rewrite (get_value_run (loaded w) key). cbn [fst snd].
  rewrite loaded_loaded_environ. done.
Qed.

(** X5: no result is kept between calls: a key that the first call found
    unset is returned by the second call once the file defines it. *)
Lemma get_value_reads_current_file (w : World) (path key v : string) :
  path ≠ "" →
  is_unset w key →
  let r1 := env_helper.get_value key w in
  let r2 := env_helper.get_value key (rewrite_dotenv path [(key, Some v)] r1.2) in
  r1.1 = Ok VNone ∧ r2.1 = Ok (VStr v).
Proof.
  intros Hp Hu. cbv zeta. rewrite (get_value_run w key). cbn [fst snd].
  rewrite (loaded_is_unset w key Hu). split; [done|].
  rewrite get_value_run. cbn [fst].
  rewrite (loaded_is_set _ key v); [done|]. right. split.
  - by apply loaded_is_unset.
  - unfold dotenv_values, dotenv_bindings. cbn [dotenv_path files rewrite_dotenv].
    rewrite decide_False by done. rewrite lookup_insert_eq. simpl.
    unfold dotenv.dict. simpl. apply lookup_insert_eq.
Qed.

(** * The crew assembler *)

(** C1: the crew holds exactly the four agents and the four tasks of the
    class, the tasks under their method names in declaration order; its
    process is sequential, so the tasks run in that order; no task
    declares a context of other tasks. *)
Theorem crew_four_agents_four_tasks (self : crew.AgenticContentCreation) :
  let c := crew.crew self in
  crew.crew_agents c =
    [ crew.market_news_monitor_agent self; crew.data_analyst_agent self;
      crew.content_creator_agent self; crew.quality_assurance_agent self ] ∧
  length (crew.crew_agents c) = 4 ∧ NoDup (crew.crew_agents c) ∧
  crew.task_name <$> crew.crew_tasks c =
    [ Some "monitor_market_news_task"; Some "analyze_market_data_task";
      Some "create_content_task"; Some "quality_assurance_task" ] ∧
  length (crew.crew_tasks c) = 4 ∧
  crew.crew_process c = crew.sequential ∧
  crew.execution_order c = Some (crew.crew_tasks c) ∧
  Forall (λ t, crew.task_context t = None) (crew.crew_tasks c).
Proof.
  cbv zeta. repeat split.
  - unfold crew.crew, crew.self_agents. cbn.
    distinct_members.
  - unfold crew.crew, crew.self_tasks. cbn. by repeat constructor.
Qed.

(** C2, at an input where it fails: with the key set nowhere, [get_value]
    returns [None], the class body prints it, and the assignment to
    [os.environ] raises [TypeError]; no tool is constructed. *)
Theorem class_body_unset_key_raises :
  (env_helper.get_value "SERPER_API_KEY" empty_world).1 = Ok VNone ∧
  (crew.class_body empty_world).1 =
    Raise (TypeError "str expected, not NoneType") ∧
  stdout (crew.class_body empty_world).2 =
    "*****SERPER_API_KEY: None" +:+ newline ∧
  tools_created (crew.class_body empty_world).2 = [].
Proof. repeat split; vm_compute; reflexivity. Qed.

(** C5: the last task of the crew is [quality_assurance_task]; it declares
    [ContentOutput] as its output model, whose two fields are an article
    string and a list of [SocialMediaPost], each a platform string and a
    content string; and it declares the output file [report.md]. *)
Theorem final_task_declares_output (self : crew.AgenticContentCreation) :
  ∃ t, last (crew.crew_tasks (crew.crew self)) = Some t ∧
       crew.task_name t = Some "quality_assurance_task" ∧
       crew.task_output_pydantic t = Some crew.ContentOutput ∧
       crew.task_output_file t = Some "report.md" ∧
       crew.model_fields crew.ContentOutput =
         [ crew.mkField "article" crew.str true;
           crew.mkField "social_media_posts"
                        (crew.List (crew.Model crew.SocialMediaPost)) true ] ∧
       crew.model_fields crew.SocialMediaPost =
         [ crew.mkField "platform" crew.str true;
           crew.mkField "content" crew.str true ].
Proof. eexists. repeat split. Qed.

(** C6: when the key is set, the class body returns, having constructed
    exactly three tools, one of each kind and pairwise distinct; the four
    registered agents draw their tools from these three objects: search
    and scrape, search and site search, search and scrape, and none. *)
Theorem three_tools_four_agents (w : World) (v : string) :
  is_set w "SERPER_API_KEY" v →
  ∃ self w',
    crew.class_body w = (Ok self, w') ∧
    tools_created w' =
      (tools_created w ++ [crew.serper self; crew.scraper self; crew.searcher self])%list ∧
    tool_kind (crew.serper self) = SerperDevTool_cls ∧
    tool_kind (crew.scraper self) = ScrapeWebsiteTool_cls ∧
    tool_kind (crew.searcher self) = WebsiteSearchTool_cls ∧
    NoDup [crew.serper self; crew.scraper self; crew.searcher self] ∧
    crew.self_agents self =
      [ crew.market_news_monitor_agent self; crew.data_analyst_agent self;
        crew.content_creator_agent self; crew.quality_assurance_agent self ] ∧
    crew.agent_tools (crew.market_news_monitor_agent self) =
      [crew.serper self; crew.scraper self] ∧
    crew.agent_tools (crew.data_analyst_agent self) =
      [crew.serper self; crew.searcher self] ∧
    crew.agent_tools (crew.content_creator_agent self) =
      [crew.serper self; crew.scraper self] ∧
    Forall (λ a, crew.agent_tools a ⊆
                 [crew.serper self; crew.scraper self; crew.searcher self])
           (crew.self_agents self).
Proof.
  intros H. apply loaded_is_set in H.
  destruct (class_body_ok w v H) as (w' & Hrun & _ & _ & Ht).
  eexists _, w'. split; [exact Hrun|]. cbn [crew.serper crew.scraper crew.searcher].
  split; [exact Ht|]. repeat split.
  - distinct_members.
  - unfold crew.self_agents. cbn.
    repeat (apply Forall_cons_2;
            [intros x; cbn; rewrite ?elem_of_cons, ?elem_of_nil; tauto|]).
    apply Forall_nil_2.
Qed.

Lemma three_tools_four_agents_witness :
  is_set exported_world "SERPER_API_KEY" "s3cr3t" ∧
  ∃ self w',
    crew.class_body exported_world = (Ok self, w') ∧
    tools_created w' =
      (tools_created exported_world ++
       [crew.serper self; crew.scraper self; crew.searcher self])%list ∧
    tool_kind (crew.serper self) = SerperDevTool_cls ∧
    tool_kind (crew.scraper self) = ScrapeWebsiteTool_cls ∧
    tool_kind (crew.searcher self) = WebsiteSearchTool_cls ∧
    NoDup [crew.serper self; crew.scraper self; crew.searcher self] ∧
    crew.self_agents self =
      [ crew.market_news_monitor_agent self; crew.data_analyst_agent self;
        crew.content_creator_agent self; crew.quality_assurance_agent self ] ∧
    crew.agent_tools (crew.market_news_monitor_agent self) =
      [crew.serper self; crew.scraper self] ∧
    crew.agent_tools (crew.data_analyst_agent self) =
      [crew.serper self; crew.searcher self] ∧
    crew.agent_tools (crew.content_creator_agent self) =
      [crew.serper self; crew.scraper self] ∧
    Forall (λ a, crew.agent_tools a ⊆
                 [crew.serper self; crew.scraper self; crew.searcher self])
           (crew.self_agents self).
Proof.
  assert (H : is_set exported_world "SERPER_API_KEY" "s3cr3t").
  { left. vm_compute. reflexivity. }
  split; [exact H|].
  exact (three_tools_four_agents exported_world "s3cr3t" H).
Defined.

(** C7 as stated fails: with an environment file that defines another
    key, that key is in the process environment after the class body. *)
Lemma class_body_exports_other_keys :
  ¬ (∀ k : string, k ≠ "SERPER_API_KEY" →
       environ (crew.class_body dotenv_world).2 !! k = environ dotenv_world !! k).
Proof.
  intros H. specialize (H "OPENAI_API_KEY").
  assert (Hne : "OPENAI_API_KEY" ≠ "SERPER_API_KEY") by discriminate.
  specialize (H Hne). vm_compute in H. discriminate.
Qed.

(** C7, amended: after the class body every variable that was in the
    process environment has the value it had, [SERPER_API_KEY] included,
    and every variable that was absent has the value the environment file
    gives it, if any. *)
Theorem class_body_environ_effect (w : World) (k : string) :
  environ (crew.class_body w).2 !! k =
  match environ w !! k with
  | Some v => Some v
  | None => dotenv_values w !! k ≫= id
  end.
Proof. rewrite class_body_environ. apply loaded_lookup. Qed.

(** C9: the class body writes the resolved key to standard output, so two
    worlds with the same earlier output and different keys end with
    different output. *)
Theorem class_body_prints_secret (w1 w2 : World) (v1 v2 : string) :
  is_set w1 "SERPER_API_KEY" v1 →
  is_set w2 "SERPER_API_KEY" v2 →
  stdout w1 = stdout w2 →
  stdout (crew.class_body w1).2 =
    stdout w1 +:+ "*****SERPER_API_KEY: " +:+ v1 +:+ newline ∧
  (v1 ≠ v2 → stdout (crew.class_body w1).2 ≠ stdout (crew.class_body w2).2).
Proof.
  intros H1 H2 Hout.
  apply loaded_is_set in H1. apply loaded_is_set in H2.
  destruct (class_body_ok w1 v1 H1) as (w1' & -> & _ & Ho1 & _).
  destruct (class_body_ok w2 v2 H2) as (w2' & -> & _ & Ho2 & _).
  cbn [snd]. rewrite Ho1, Ho2, Hout. split; [done|].
  intros Hne Heq. apply Hne.
  apply (inj (String.app _)) in Heq.
  apply append_newline_inj in Heq.
  by apply (inj (String.app _)) in Heq.
Qed.

Lemma class_body_prints_secret_witness :
  stdout (crew.class_body (exported "s3cr3t")).2 =
    stdout (exported "s3cr3t") +:+ "*****SERPER_API_KEY: " +:+ "s3cr3t" +:+ newline ∧
  stdout (crew.class_body (exported "s3cr3t")).2 ≠
    stdout (crew.class_body (exported "0ther")).2.
Proof.
  assert (H1 : is_set (exported "s3cr3t") "SERPER_API_KEY" "s3cr3t").
  { left. vm_compute. reflexivity. }
  assert (H2 : is_set (exported "0ther") "SERPER_API_KEY" "0ther").
  { left. vm_compute. reflexivity. }
  destruct (class_body_prints_secret (exported "s3cr3t") (exported "0ther")
              "s3cr3t" "0ther" H1 H2 eq_refl) as [Hp Hd].
  split; [exact Hp|]. apply Hd. discriminate.
Defined.

(** C10: of the agents of a class whose body ran, the quality assurance
    agent has no tool, and each of the other three has exactly two,
    distinct, tools. *)
Theorem quality_assurance_agent_has_no_tools
    (w : World) (self : crew.AgenticContentCreation) :
  (crew.class_body w).1 = Ok self →
  crew.agent_tools (crew.quality_assurance_agent self) = [] ∧
  Forall (λ a, length (crew.agent_tools a) = 2 ∧ NoDup (crew.agent_tools a))
         [ crew.market_news_monitor_agent self; crew.data_analyst_agent self;
           crew.content_creator_agent self ].
Proof.
  intros H. destruct (class_body_inv w self H) as (s & _ & ->).
  split; [done|].
  repeat (apply Forall_cons_2; [split; [done|cbn; distinct_members]|]).
  apply Forall_nil_2.
Qed.

Lemma quality_assurance_agent_has_no_tools_witness :
  ∃ self, (crew.class_body exported_world).1 = Ok self ∧
    crew.agent_tools (crew.quality_assurance_agent self) = [] ∧
    Forall (λ a, length (crew.agent_tools a) = 2 ∧ NoDup (crew.agent_tools a))
           [ crew.market_news_monitor_agent self; crew.data_analyst_agent self;
             crew.content_creator_agent self ].
Proof.
  eexists. 
  assert (H : (crew.class_body exported_world).1 =
              Ok (crew.mkClass "config/agents.yaml" "config/tasks.yaml" (VStr "s3cr3t")
                    (mkTool 0 SerperDevTool_cls) (mkTool 1 ScrapeWebsiteTool_cls)
                    (mkTool 2 WebsiteSearchTool_cls))).
  { vm_compute. reflexivity. }
  split; [exact H|].
  exact (quality_assurance_agent_has_no_tools exported_world _ H).
Defined.

(** * Further properties *)

(** ** Shared lemmas *)

Lemma loaded_lookup_iff w k v :
  environ (loaded w) !! k = Some v ↔ is_set w k v.
Proof.
  split; [|apply loaded_is_set].
  rewrite loaded_lookup. unfold is_set.
  destruct (environ w !! k) as [x|]; intros H.
  - by left.
  - right. split; [done|].
    destruct (dotenv_values w !! k) as [[u|]|]; simpl in H; by try injection H as ->.
Qed.

Lemma value_of_str o v : value_of o = VStr v → o = Some v.
Proof. destruct o; simpl; intros H; [by injection H as ->|done]. Qed.

Lemma class_body_stdout w :
  stdout (crew.class_body w).2 =
  stdout w +:+ "*****SERPER_API_KEY: " +:+
  py_str (value_of (environ (loaded w) !! "SERPER_API_KEY")) +:+ newline.
Proof.
  rewrite class_body_run. cbv zeta. rewrite loaded_write_stdout_environ.
  by destruct (environ (loaded w) !! "SERPER_API_KEY").
Qed.

Lemma class_body_io_log w :
  io_log (crew.class_body w).2 = (io_log w ++ load_events w ++ load_events w)%list.
Proof.
  rewrite class_body_run. cbv zeta. rewrite loaded_write_stdout_environ.
  destruct (environ (loaded w) !! "SERPER_API_KEY"); cbn; by rewrite <- app_assoc.
Qed.

(** ** The environment loader *)

(** X1: a call of [get_value] writes nothing to standard output, builds no
    tool and leaves the files on disk as they are. *)
Theorem get_value_frame (w : World) (key : string) :
  let w' := (env_helper.get_value key w).2 in
  stdout w' = stdout w ∧ tools_created w' = tools_created w ∧
  next_id w' = next_id w ∧ files w' = files w ∧
  dotenv_path w' = dotenv_path w.
Proof. cbv zeta. by rewrite get_value_run. Qed.

(** X2: after a call of [get_value], whatever key was asked for, the
    process environment binds a variable to a string exactly when that
    variable was set to it, by the process environment or else by the
    environment file. *)
Theorem get_value_environ_holds_set_keys (w : World) (key k v : string) :
  environ (env_helper.get_value key w).2 !! k = Some v ↔ is_set w k v.
Proof. rewrite get_value_run. cbn [snd]. apply loaded_lookup_iff. Qed.

(** X3: what [get_value] returns for a key does not depend on an earlier
    call for another key. *)
Theorem get_value_after_other_key (w : World) (k1 k2 : string) :
  (env_helper.get_value k2 (env_helper.get_value k1 w).2).1 =
  (env_helper.get_value k2 w).1.
Proof.
  rewrite (get_value_run w k1). cbn [snd].
  rewrite !get_value_run. cbn [fst].
  by rewrite loaded_loaded_environ.
Qed.

(** X4: a value that [get_value] has returned once stays: however the
    environment file is rewritten afterwards, the next call for the key
    returns the same string. *)
Theorem get_value_keeps_loaded_value
    (w : World) (key v path : string) (bs : list binding) :
  (env_helper.get_value key w).1 = Ok (VStr v) →
  (env_helper.get_value key
     (rewrite_dotenv path bs (env_helper.get_value key w).2)).1 = Ok (VStr v).
Proof.
  rewrite (get_value_run w key). cbn [fst snd]. intros H.
  injection H as H. apply value_of_str in H.
  change (environ (loaded w) !! key = Some v) in H.
  rewrite get_value_run. cbn [fst]. rewrite loaded_lookup.
  change (environ (rewrite_dotenv path bs (loaded w))) with (environ (loaded w)).
  by rewrite H.
Qed.

Lemma get_value_keeps_loaded_value_witness :
  (env_helper.get_value "SERPER_API_KEY"
     (rewrite_dotenv "/app/.env" [("SERPER_API_KEY", Some "n3w")]
        (env_helper.get_value "SERPER_API_KEY" dotenv_world).2)).1 =
  Ok (VStr "s3cr3t").
Proof.
  apply (get_value_keeps_loaded_value dotenv_world "SERPER_API_KEY" "s3cr3t").
  vm_compute. reflexivity.
Defined.

Lemma get_value_reads_current_file_witness :
  (env_helper.get_value "SERPER_API_KEY" no_key_world).1 = Ok VNone ∧
  (env_helper.get_value "SERPER_API_KEY"
     (rewrite_dotenv "/app/.env" [("SERPER_API_KEY", Some "s3cr3t")]
        (env_helper.get_value "SERPER_API_KEY" no_key_world).2)).1 =
  Ok (VStr "s3cr3t").
Proof.
  apply (get_value_reads_current_file no_key_world "/app/.env"
           "SERPER_API_KEY" "s3cr3t").
  - discriminate.
  - split; [vm_compute; reflexivity|]. intros v. vm_compute. discriminate.
Defined.

(** ** The class body *)


(** X7: when the key is unset the class body raises [TypeError], and the
    effects made before the assignment stay: the line with [None] is on
    standard output and the environment file has been exported as by one
    [load_env]; no tool has been built. *)
Theorem class_body_failure_effects (w : World) :
  is_unset w "SERPER_API_KEY" →
  (crew.class_body w).1 = Raise (TypeError "str expected, not NoneType") ∧
  stdout (crew.class_body w).2 =
    stdout w +:+ "*****SERPER_API_KEY: None" +:+ newline ∧
  environ (crew.class_body w).2 = environ (env_helper.load_env w).2 ∧
  tools_created (crew.class_body w).2 = tools_created w.
Proof.
  intros H. apply loaded_is_unset in H. split; [by apply class_body_raise|].
  split; [by rewrite class_body_stdout, H|].
  split; [by rewrite class_body_environ, load_env_run|].
  rewrite class_body_run. cbv zeta.
  by rewrite loaded_write_stdout_environ, H.
Qed.

Lemma class_body_failure_effects_witness :
  (crew.class_body no_key_world).1 =
    Raise (TypeError "str expected, not NoneType") ∧
  stdout (crew.class_body no_key_world).2 =
    stdout no_key_world +:+ "*****SERPER_API_KEY: None" +:+ newline ∧
  environ (crew.class_body no_key_world).2 =
    environ (env_helper.load_env no_key_world).2 ∧
  tools_created (crew.class_body no_key_world).2 = tools_created no_key_world.
Proof.
  apply (class_body_failure_effects no_key_world).
  split; [vm_compute; reflexivity|]. intros v. vm_compute. discriminate.
Defined.

(** X8: when the class body returns, the class attribute [serperApiKey]
    and [os.environ] hold the same string for the key, the one the key
    was set to. *)
Theorem class_body_attribute_matches_environ
    (w w' : World) (self : crew.AgenticContentCreation) :
  crew.class_body w = (Ok self, w') →
  ∃ v, is_set w "SERPER_API_KEY" v ∧
       crew.serperApiKey self = VStr v ∧
       environ w' !! "SERPER_API_KEY" = Some v.
Proof.
  intros Hrun.
  assert (H : (crew.class_body w).1 = Ok self) by by rewrite Hrun.
  destruct (class_body_inv w self H) as (s & Hs & ->).
  exists s. split; [by apply loaded_lookup_iff|]. split; [done|].
  assert (He : environ w' = environ (crew.class_body w).2) by by rewrite Hrun.
  by rewrite He, class_body_environ.
Qed.

Lemma class_body_attribute_matches_environ_witness :
  ∃ v, is_set dotenv_world "SERPER_API_KEY" v ∧
       crew.serperApiKey (crew.mkClass "config/agents.yaml" "config/tasks.yaml"
                            (VStr "s3cr3t") (mkTool 0 SerperDevTool_cls)
                            (mkTool 1 ScrapeWebsiteTool_cls)
                            (mkTool 2 WebsiteSearchTool_cls)) = VStr v ∧
       environ (crew.class_body dotenv_world).2 !! "SERPER_API_KEY" = Some v.
Proof.
  apply (class_body_attribute_matches_environ dotenv_world).
  vm_compute. reflexivity.
Defined.

(** X9: whether it returns or raises, the class body searches for and
    reads the environment file exactly twice. *)
Theorem class_body_loads_file_twice (w : World) :
  io_log (crew.class_body w).2 =
  (io_log w ++ load_events w ++ load_events w)%list ∧
  io_log (env_helper.load_env w).2 = (io_log w ++ load_events w)%list.
Proof. split; [apply class_body_io_log|by rewrite load_env_run]. Qed.

(** X10: the class body changes the process environment exactly as one
    call of [load_env] does; the second load and the assignment to
    [os.environ] change nothing more. *)
Theorem class_body_environ_is_one_load (w : World) :
  environ (crew.class_body w).2 = environ (env_helper.load_env w).2.
Proof. by rewrite class_body_environ, load_env_run. Qed.

(** X11: standard output does not tell an unset key from a key set to the
    string [None]. *)
Theorem stdout_same_for_unset_and_None (w1 w2 : World) :
  is_unset w1 "SERPER_API_KEY" →
  is_set w2 "SERPER_API_KEY" "None" →
  stdout w1 = stdout w2 →
  stdout (crew.class_body w1).2 = stdout (crew.class_body w2).2.
Proof.
  intros H1 H2 Hout. apply loaded_is_unset in H1. apply loaded_is_set in H2.
  by rewrite !class_body_stdout, H1, H2, Hout.
Qed.

Lemma stdout_same_for_unset_and_None_witness :
  stdout (crew.class_body empty_world).2 =
  stdout (crew.class_body (exported "None")).2.
Proof.
  apply (stdout_same_for_unset_and_None empty_world (exported "None")).
  - split; [vm_compute; reflexivity|]. intros v. vm_compute. discriminate.
  - left. vm_compute. reflexivity.
  - reflexivity.
Defined.

(** ** The crew *)



(** X13: a task of the crew other than [quality_assurance_task] declares
    neither an output model nor an output file. *)
Theorem only_last_task_declares_output
    (self : crew.AgenticContentCreation) (t : crew.Task) :
  t ∈ crew.crew_tasks (crew.crew self) →
  crew.task_name t ≠ Some "quality_assurance_task" →
  crew.task_output_pydantic t = None ∧ crew.task_output_file t = None.
Proof.
  unfold crew.crew, crew.self_tasks. cbn.
  rewrite !elem_of_cons, elem_of_nil.
  intros [->|[->|[->|[->|[]]]]] Hn; try done.
Qed.

Lemma only_last_task_declares_output_witness :
  crew.task_output_pydantic
    (crew.task_decorator "create_content_task"
       (crew.create_content_task
          (crew.mkClass "config/agents.yaml" "config/tasks.yaml" VNone
             (mkTool 0 SerperDevTool_cls) (mkTool 1 ScrapeWebsiteTool_cls)
             (mkTool 2 WebsiteSearchTool_cls)))) = None ∧
  crew.task_output_file
    (crew.task_decorator "create_content_task"
       (crew.create_content_task
          (crew.mkClass "config/agents.yaml" "config/tasks.yaml" VNone
             (mkTool 0 SerperDevTool_cls) (mkTool 1 ScrapeWebsiteTool_cls)
             (mkTool 2 WebsiteSearchTool_cls)))) = None.
Proof.
  apply (only_last_task_declares_output
           (crew.mkClass "config/agents.yaml" "config/tasks.yaml" VNone
              (mkTool 0 SerperDevTool_cls) (mkTool 1 ScrapeWebsiteTool_cls)
              (mkTool 2 WebsiteSearchTool_cls))).
  - vm_compute. do 2 apply list_elem_of_further. apply list_elem_of_here.
  - vm_compute. discriminate.
Defined.

(** X14: every decorated agent or task method reads the configuration
    entry that bears the method's own name, agents from [agents_config]
    and tasks from [tasks_config]. *)
Theorem members_use_own_config_key (self : crew.AgenticContentCreation) :
  Forall (λ m,
            match m with
            | crew.agent_method name body =>
                crew.agent_config (body self) =
                crew.mkConfigRef (crew.agents_config self) name
            | crew.task_method name body =>
                crew.task_config (body self) =
                crew.mkConfigRef (crew.tasks_config self) name
            | crew.crew_method _ => True
            end) crew.members.
Proof. unfold crew.members. repeat apply Forall_cons_2; try done. Qed.
